(** * Currency utilities of AI Inventory (public/js/currency_utils.js)

    A shallow embedding of the four functions of the file
    ([get_report_currency], [format_currency_js], [get_currency_symbol],
    [clear_currency_cache]) together with the part of the JavaScript
    semantics they rely on: truthiness, [||], property reads and writes
    on plain objects (own properties first, then [Object.prototype]),
    exceptions and [try]/[catch], and the module-level variable
    [currencyCache]. *)

From stdpp Require Import gmap strings list fin_maps.
From Stdlib Require Import QArith.

Local Close Scope Q_scope.
Local Open Scope string_scope.

(** ** Values *)

(** The values the functions of the file can receive as arguments:
    a string, or nothing ([undefined] or [null]). *)
Inductive param : Type :=
  | PUndefined
  | PNull
  | PString (s : string).

(** The values the functions can hold in a variable or return.  Besides
    strings, [undefined] and [null], a read of a plain object can yield a
    member of [Object.prototype]: the prototype object itself (through
    the accessor [__proto__]) or one of its built-in functions. *)
Inductive value : Type :=
  | VUndefined
  | VNull
  | VString (s : string)
  | VObjectPrototype
  | VBuiltin (name : string).

#[global] Instance param_eq_dec : EqDecision param.
Proof. solve_decision. Defined.

#[global] Instance value_eq_dec : EqDecision value.
Proof. solve_decision. Defined.

Definition val (p : param) : value :=
  match p with
  | PUndefined => VUndefined
  | PNull => VNull
  | PString s => VString s
  end.

(** A result of a collaborator that is a string or empty: [None] stands
    for [undefined] or [null]. *)
Definition of_setting (o : option string) : value :=
  match o with
  | Some s => VString s
  | None => VUndefined
  end.

(** ToBoolean. *)
Definition truthy (v : value) : bool :=
  match v with
  | VUndefined | VNull => false
  | VString s => negb (bool_decide (s = ""))
  | VObjectPrototype | VBuiltin _ => true
  end.

(** [v === undefined || v === null]. *)
Definition nullish (p : param) : bool :=
  match p with
  | PUndefined | PNull => true
  | PString _ => false
  end.

(** [a || b]. *)
Definition or_else (a b : value) : value :=
  if truthy a then a else b.

(** ** Plain objects used as maps *)

(** The function-valued properties every plain object inherits from
    [Object.prototype]. *)
Definition object_prototype_functions : list string :=
  [ "constructor"; "hasOwnProperty"; "isPrototypeOf";
    "propertyIsEnumerable"; "toLocaleString"; "toString"; "valueOf";
    "__defineGetter__"; "__defineSetter__";
    "__lookupGetter__"; "__lookupSetter__" ].

(** What [o[k]] yields when [o] has no own property [k]. *)
Definition inherited (k : string) : value :=
  if decide (k = "__proto__") then VObjectPrototype
  else if decide (k ∈ object_prototype_functions) then VBuiltin k
  else VUndefined.

(** [o[k]] for an object created by [{}] or by an object literal with
    string values, and changed only by assignments [o[k] = s]: the own
    property if there is one, else the inherited one.  [__proto__] is an
    accessor of [Object.prototype] and such an object has no own
    property of that name, so that read always reaches the accessor. *)
Definition get_property (o : gmap string string) (k : string) : value :=
  if decide (k = "__proto__") then VObjectPrototype
  else match o !! k with
       | Some s => VString s
       | None => inherited k
       end.

(** [o[k] = s] for a string [s]: creates or overwrites the own property,
    except for [__proto__], whose setter ignores a value that is not an
    object. *)
Definition set_property (o : gmap string string) (k s : string)
  : gmap string string :=
  if decide (k = "__proto__") then o else <[k := s]> o.

(** ** Completions *)

Inductive outcome (A : Type) : Type :=
  | Returns (a : A)
  | Throws.
Arguments Returns {A} a.
Arguments Throws {A}.

Section Embedding.

(** JavaScript numbers are kept abstract. *)
Context {number : Type}.

(** A company record as far as the code reads it. *)
Record company_doc : Type := CompanyDoc {
  default_currency : option string
}.

(** The host environment: the three [frappe] collaborators that
    [get_report_currency] consults, the formatter, and the two engine
    services used when a value is rendered as text. *)
Record host : Type := Host {
  (* frappe.get_doc(doctype, name): a record, nothing, or an exception *)
  frappe_get_doc : string → value → outcome (option company_doc);
  (* frappe.defaults.get_default(key) *)
  frappe_defaults_get_default : string → outcome (option string);
  (* frappe.sys_defaults.currency *)
  frappe_sys_defaults_currency : outcome (option string);
  (* frappe.format(amount, {fieldtype, options}) *)
  frappe_format : number → string → value → outcome string;
  (* amount.toLocaleString() *)
  toLocaleString : number → string;
  (* the text of the built-in function Object.prototype[name] *)
  function_text : string → string
}.

(** The calls made to the collaborators, in order. *)
Inductive call : Type :=
  | CallGetDoc (doctype : string) (name : value)
  | CallGetDefault (key : string)
  | ReadSysDefaults (field : string)
  | CallFormat (amount : number) (fieldtype : string) (options : value).

(** ToString, as used by a template literal and by a property key. *)
Definition to_string (h : host) (v : value) : string :=
  match v with
  | VUndefined => "undefined"
  | VNull => "null"
  | VString s => s
  | VObjectPrototype => "[object Object]"
  | VBuiltin name => function_text h name
  end.

(** ** Computations over [currencyCache] *)

(** The result of running a piece of code: how it completes, the value
    of [currencyCache] afterwards and the collaborator calls it made. *)
Record run (A : Type) : Type := Run {
  completion : outcome A;
  cache_after : gmap string string;
  calls : list call
}.
Arguments Run {A} _ _ _.
Arguments completion {A} _.
Arguments cache_after {A} _.
Arguments calls {A} _.

Definition js (A : Type) : Type := gmap string string → run A.

Definition js_ret {A} (a : A) : js A := λ c, Run (Returns a) c [].

Definition js_bind {A B} (m : js A) (f : A → js B) : js B := λ c,
  let r := m c in
  match completion r with
  | Returns a =>
      let r' := f a (cache_after r) in
      Run (completion r') (cache_after r') (calls r ++ calls r')
  | Throws => Run Throws (cache_after r) (calls r)
  end.

(** [try { body } catch (e) { handler }] *)
Definition try_catch {A} (body handler : js A) : js A := λ c,
  let r := body c in
  match completion r with
  | Returns a => r
  | Throws =>
      let r' := handler (cache_after r) in
      Run (completion r') (cache_after r') (calls r ++ calls r')
  end.

(** A call of a collaborator. *)
Definition ask {A} (ev : call) (o : outcome A) : js A := λ c, Run o c [ev].

(** [currencyCache[k]] *)
Definition read_cache (k : string) : js value := λ c,
  Run (Returns (get_property c k)) c [].

(** [currencyCache[k] = s] *)
Definition write_cache (k s : string) : js unit := λ c,
  Run (Returns tt) (set_property c k s) [].

End Embedding.

Arguments host : clear implicits.
Arguments call : clear implicits.
Arguments run : clear implicits.
Arguments js : clear implicits.
Arguments Run {number A} _ _ _.
Arguments completion {number A} _.
Arguments cache_after {number A} _.
Arguments calls {number A} _.

#[global] Instance js_mret {number} : MRet (js number) := @js_ret number.
#[global] Instance js_mbind {number} : MBind (js number) :=
  λ A B f m, js_bind m f.

(** ** The module *)

(** The table of [get_currency_symbol] (lines 92-105). *)
Definition currency_symbols : gmap string string :=
  list_to_map
    [ ("INR", "₹"); ("USD", "$"); ("EUR", "€"); ("GBP", "£");
      ("JPY", "¥"); ("CNY", "¥"); ("AUD", "A$"); ("CAD", "C$");
      ("CHF", "Fr"); ("SGD", "S$"); ("AED", "د.إ"); ("SAR", "﷼") ].

Section CurrencyUtils.

Context {number : Type}.
Variable h : host number.

(** A statement that may [return] a value or fall through to [rest]. *)
Definition or_continue (s : js number (option value)) (rest : js number value)
  : js number value :=
  r ← s;
  match r with
  | Some v => mret v
  | None => rest
  end.

(** Lines 21-31: the company record. *)
Definition company_step (company : param) : js number (option value) :=
  if truthy (val company) then
    try_catch
      (company_doc ← ask (CallGetDoc "Company" (val company))
                         (frappe_get_doc h "Company" (val company));
       match company_doc with
       | Some doc =>
           match default_currency doc with
           | Some cur =>
               if truthy (VString cur) then
                 write_cache (to_string h (val company)) cur;;
                 mret (Some (VString cur))
               else mret None
           | None => mret None
           end
       | None => mret None
       end)
      (mret None)
  else mret None.

(** Lines 34-41: the global default. *)
Definition global_step : js number (option value) :=
  try_catch
    (default_currency ← ask (CallGetDefault "currency")
                            (frappe_defaults_get_default h "currency");
     if truthy (of_setting default_currency)
     then mret (Some (of_setting default_currency))
     else mret None)
    (mret None).

(** Lines 44-51: the system default. *)
Definition system_step : js number (option value) :=
  try_catch
    (system_currency ← ask (ReadSysDefaults "currency")
                           (frappe_sys_defaults_currency h);
     if truthy (of_setting system_currency)
     then mret (Some (of_setting system_currency))
     else mret None)
    (mret None).

(** Lines 14-55. *)
Definition get_report_currency (company : param) : js number value :=
  cached ← (if truthy (val company)
            then read_cache (to_string h (val company))
            else mret (val company));
  if truthy cached then read_cache (to_string h (val company))
  else
    or_continue (company_step company)
      (or_continue global_step
         (or_continue system_step
            (mret (VString "INR")))).

(** Lines 69-77: the body of [format_currency_js] once [currency] is
    settled. *)
Definition format_with (amount : number) (currency : value)
  : js number value :=
  try_catch
    (s ← ask (CallFormat amount "Currency" currency)
             (frappe_format h amount "Currency" currency);
     mret (VString s))
    (mret (VString (to_string h currency +:+ " " +:+ toLocaleString h amount))).

(** Lines 64-78. *)
Definition format_currency_js (amount : number) (currency company : param)
  : js number value :=
  currency' ← (if nullish currency then get_report_currency company
               else mret (val currency));
  format_with amount currency'.

(** Line 107: [currency_symbols[currency] || currency]. *)
Definition symbol_of (currency : value) : value :=
  or_else (get_property currency_symbols (to_string h currency)) currency.

(** Lines 86-108. *)
Definition get_currency_symbol (currency company : param)
  : js number value :=
  currency' ← (if nullish currency then get_report_currency company
               else mret (val currency));
  mret (symbol_of currency').

(** Lines 113-115. *)
Definition clear_currency_cache : js number value :=
  λ _, Run (Returns VUndefined) ∅ [].

End CurrencyUtils.

(** ** The fallback chain, step by step *)

Section Chain.

Context {number : Type}.
Variable h : host number.

(** Step 1 as line 16 tests it: the company is non-empty and the read
    [currencyCache[company]] is truthy.  The read yields an own entry
    or, for want of one, a member inherited from [Object.prototype]. *)
Definition cached_currency (c : gmap string string) (company : param)
  : option value :=
  match company with
  | PString k =>
      if decide (k = "") then None
      else if truthy (get_property c k) then Some (get_property c k)
      else None
  | _ => None
  end.

(** Step 2: the company is non-empty, its record is retrieved and has a
    non-empty default currency. *)
Definition record_currency (company : param) : option string :=
  match company with
  | PString k =>
      if decide (k = "") then None
      else match frappe_get_doc h "Company" (VString k) with
           | Returns (Some doc) =>
               match default_currency doc with
               | Some d => if decide (d = "") then None else Some d
               | None => None
               end
           | _ => None
           end
  | _ => None
  end.

Definition non_empty (o : outcome (option string)) : option string :=
  match o with
  | Returns (Some d) => if decide (d = "") then None else Some d
  | _ => None
  end.

(** Step 3: the global default, unless it fails or is empty. *)
Definition global_currency : option string :=
  non_empty (frappe_defaults_get_default h "currency").

(** Step 4: the system default, unless it fails or is empty. *)
Definition system_currency : option string :=
  non_empty (frappe_sys_defaults_currency h).

(** Steps 2 to 5. *)
Definition lookup_currency (company : param) : string :=
  match record_currency company with
  | Some d => d
  | None =>
      match global_currency with
      | Some d => d
      | None =>
          match system_currency with
          | Some d => d
          | None => "INR"
          end
      end
  end.

(** Steps 1 to 5 as the code runs them: the first success wins. *)
Definition resolve_currency (c : gmap string string) (company : param)
  : value :=
  match cached_currency c company with
  | Some v => v
  | None => VString (lookup_currency company)
  end.

(** Step 1 in the words of the specification: the company is non-empty
    and present in the cache, a mapping from company to currency code. *)
Definition stored_currency (c : gmap string string) (company : param)
  : option string :=
  match company with
  | PString k => if decide (k = "") then None else c !! k
  | _ => None
  end.

(** Steps 1 to 5 in the words of the specification: the cached value if
    the company is in the cache, else the company record's default
    currency, else the global default, else the system default, else
    ["INR"]. *)
Definition chain_currency (c : gmap string string) (company : param)
  : value :=
  match stored_currency c company with
  | Some d => VString d
  | None => VString (lookup_currency company)
  end.

(** The collaborators steps 2 to 5 consult, in order. *)
Definition lookup_calls (company : param) : list (call number) :=
  (if truthy (val company) then [CallGetDoc "Company" (val company)] else [])
  ++ match record_currency company with
     | Some _ => []
     | None =>
         CallGetDefault "currency" ::
         match global_currency with
         | Some _ => []
         | None => [ReadSysDefaults "currency"]
         end
     end.

(** The cache the chain leaves behind: only step 2 stores. *)
Definition resolve_cache (c : gmap string string) (company : param)
  : gmap string string :=
  match cached_currency c company, record_currency company, company with
  | None, Some d, PString k => <[k := d]> c
  | _, _, _ => c
  end.

End Chain.

(** What holds of every cache the module can produce. *)
Definition cache_ok (c : gmap string string) : Prop :=
  ∀ k s, c !! k = Some s → k ≠ "" ∧ s ≠ "" ∧ inherited k = VUndefined.

(** [get_currency_symbol(currency, company)] works with the currency
    that [get_report_currency(company)] returns: the call runs that
    resolution and answers with the symbol of its result. *)
Definition symbol_uses_resolved {number} (h : host number)
  (currency company : param) (c : gmap string string) : Prop :=
  let r := get_report_currency h company c in
  ∃ cur,
    completion r = Returns cur
    ∧ get_currency_symbol h currency company c =
        Run (Returns (symbol_of h cur)) (cache_after r) (calls r).

(** [format_currency_js(amount, currency, company)] works with the
    currency that [get_report_currency(company)] returns: the call runs
    that resolution and formats with its result. *)
Definition format_uses_resolved {number} (h : host number)
  (amount : number) (currency company : param) (c : gmap string string)
  : Prop :=
  let r := get_report_currency h company c in
  ∃ cur,
    completion r = Returns cur
    ∧ format_currency_js h amount currency company c =
        Run (completion (format_with h amount cur (cache_after r)))
            (cache_after (format_with h amount cur (cache_after r)))
            (calls r ++ calls (format_with h amount cur (cache_after r))).

(** ** The public functions as requests, and the caches they produce *)

Inductive request {number : Type} : Type :=
  | ReportCurrency (company : param)
  | FormatCurrency (amount : number) (currency company : param)
  | CurrencySymbol (currency company : param)
  | ClearCache.
Arguments request : clear implicits.

Definition serve {number} (h : host number) (r : request number)
  : js number value :=
  match r with
  | ReportCurrency company => get_report_currency h company
  | FormatCurrency amount currency company =>
      format_currency_js h amount currency company
  | CurrencySymbol currency company => get_currency_symbol h currency company
  | ClearCache => clear_currency_cache
  end.

Definition is_clear {number} (r : request number) : bool :=
  match r with
  | ClearCache => true
  | _ => false
  end.

(** The cache after a sequence of requests, each served by the host of
    its moment. *)
Fixpoint serve_all {number} (rs : list (host number * request number))
  (c : gmap string string) : gmap string string :=
  match rs with
  | [] => c
  | (h, r) :: rs' => serve_all rs' (cache_after (serve h r c))
  end.

(** The values [currencyCache] can take: it starts as [{}] (line 7) and
    changes only through the four functions. *)
Inductive reachable {number : Type} : gmap string string → Prop :=
  | reachable_init : reachable ∅
  | reachable_serve h r c :
      reachable c → reachable (cache_after (serve (number := number) h r c)).
Arguments reachable : clear implicits.

(** [n] successive calls of [get_report_currency(company)]: the results
    in order, and the cache at the end. *)
Fixpoint repeat_report {number} (h : host number) (company : param)
  (n : nat) (c : gmap string string)
  : list (outcome value) * gmap string string :=
  match n with
  | 0 => ([], c)
  | S n' =>
      let r := get_report_currency h company c in
      let '(rest, c') := repeat_report h company n' (cache_after r) in
      (completion r :: rest, c')
  end.

(** ** Sample hosts *)

(** A page on which [frappe] is not available: every collaborator
    throws. *)
Definition bare_host : host Q := {|
  frappe_get_doc := λ _ _, Throws;
  frappe_defaults_get_default := λ _, Throws;
  frappe_sys_defaults_currency := Throws;
  frappe_format := λ _ _ _, Throws;
  toLocaleString := λ q, if Qeq_bool q (2469 # 2)%Q then "1,234.5" else "0";
  function_text := λ name, "function " +:+ name +:+ "() { [native code] }"
|}.

(** A site with a company AcmeCo in euros, a global default and a system
    default. *)
Definition acme_host : host Q := {|
  frappe_get_doc := λ doctype name,
    if bool_decide (doctype = "Company" ∧ name = VString "AcmeCo")
    then Returns (Some (CompanyDoc (Some "EUR")))
    else Throws;
  frappe_defaults_get_default := λ key,
    if bool_decide (key = "currency") then Returns (Some "USD")
    else Returns None;
  frappe_sys_defaults_currency := Returns (Some "GBP");
  frappe_format := λ _ _ _, Throws;
  toLocaleString := toLocaleString bare_host;
  function_text := function_text bare_host
|}.

(** The same site after AcmeCo switched to Swiss francs. *)
Definition acme_host_chf : host Q := {|
  frappe_get_doc := λ doctype name,
    if bool_decide (doctype = "Company" ∧ name = VString "AcmeCo")
    then Returns (Some (CompanyDoc (Some "CHF")))
    else Throws;
  frappe_defaults_get_default := frappe_defaults_get_default acme_host;
  frappe_sys_defaults_currency := frappe_sys_defaults_currency acme_host;
  frappe_format := frappe_format acme_host;
  toLocaleString := toLocaleString acme_host;
  function_text := function_text acme_host
|}.

(** The cache of a fresh page after one resolution for AcmeCo. *)
Definition acme_cache : gmap string string :=
  cache_after (serve acme_host (ReportCurrency (PString "AcmeCo")) ∅).

(** Requests that follow on the site after the switch, none of them a
    clear. *)
Definition later_requests : list (host Q * request Q) :=
  [ (acme_host_chf, ReportCurrency (PString "Other"));
    (acme_host_chf, CurrencySymbol PUndefined (PString "AcmeCo"));
    (acme_host_chf, FormatCurrency (2469 # 2)%Q PNull (PString "AcmeCo")) ].

(** The company a request is about. *)
Definition request_company {number} (r : request number) : option param :=
  match r with
  | ReportCurrency company
  | FormatCurrency _ _ company
  | CurrencySymbol _ company => Some company
  | ClearCache => None
  end.

(** The currency [format_currency_js] and [get_currency_symbol] go on
    with after lines 65-67 and 87-89. *)
Definition currency_used {number} (h : host number) (c : gmap string string)
  (currency company : param) : value :=
  if nullish currency then resolve_currency h c company else val currency.

(** A morning on the site: one report for AcmeCo, one for a company
    without a record, a symbol lookup. *)
Definition morning_requests : list (host Q * request Q) :=
  [ (acme_host, ReportCurrency (PString "AcmeCo"));
    (acme_host, ReportCurrency (PString "Other"));
    (acme_host, CurrencySymbol (PString "USD") PUndefined) ].

(** * Properties *)

Section Properties.

Context {number : Type}.
Implicit Types (h : host number) (c : gmap string string).
Implicit Types (company currency : param) (k d : string).

Lemma truthy_string s : truthy (VString s) = true ↔ s ≠ "".
Proof.
  unfold truthy. rewrite negb_true_iff, bool_decide_eq_false. done.
Qed.

Lemma truthy_string_false s : truthy (VString s) = false ↔ s = "".
Proof.
  unfold truthy. rewrite negb_false_iff, bool_decide_eq_true. done.
Qed.

Lemma truthy_val_param company :
  truthy (val company) = true ↔ ∃ k, company = PString k ∧ k ≠ "".
Proof.
  destruct company as [| |k]; simpl; split; try done.
  - intros (k & ? & _). done.
  - intros (k & ? & _). done.
  - intros Hk. exists k. split; [done|]. by apply truthy_string.
  - intros (k' & [= <-] & Hk). by apply truthy_string.
Qed.

Lemma non_empty_setting (o : outcome (option string)) :
  non_empty o =
    match o with
    | Returns x => if truthy (of_setting x) then x else None
    | Throws => None
    end.
Proof.
  destruct o as [[d|]|]; simpl; try done.
  case_decide as Hd.
  - by rewrite bool_decide_eq_true_2.
  - by rewrite bool_decide_eq_false_2.
Qed.

Lemma cached_currency_None c k :
  k ≠ "" → cached_currency c (PString k) = None →
  truthy (get_property c k) = false ∧ k ≠ "__proto__".
Proof.
  intros Hk. unfold cached_currency. rewrite decide_False by done.
  destruct (truthy (get_property c k)) eqn:Hv; [done|]. intros _.
  split; [done|]. intros ->. unfold get_property in Hv.
  by rewrite decide_True in Hv.
Qed.

Lemma run_eta {A} (r : run number A) :
  Run (completion r) (cache_after r) (calls r) = r.
Proof. by destruct r. Qed.

Ltac run_js :=
  unfold or_continue, mbind, js_mbind, js_bind, mret, js_mret, js_ret,
    try_catch, ask, read_cache, write_cache; simpl.

Lemma or_continue_run (s : js number (option value)) rest c o c' l :
  s c = Run (Returns o) c' l →
  or_continue s rest c =
    match o with
    | Some v => Run (Returns v) c' l
    | None =>
        Run (completion (rest c')) (cache_after (rest c'))
            (l ++ calls (rest c'))
    end.
Proof.
  intros Hs. unfold or_continue, mbind, js_mbind, js_bind. rewrite Hs. simpl.
  destruct o; simpl; [|done]. by rewrite app_nil_r.
Qed.

Lemma company_step_run h company c :
  cached_currency c company = None →
  company_step h company c =
    Run (Returns (VString <$> record_currency h company))
        (resolve_cache h c company)
        (if truthy (val company)
         then [CallGetDoc "Company" (val company)] else []).
Proof.
  intros Hmiss. unfold company_step, resolve_cache. rewrite Hmiss.
  destruct (truthy (val company)) eqn:Hc.
  - apply truthy_val_param in Hc as (k & -> & Hk).
    apply cached_currency_None in Hmiss as [_ Hproto]; [|done].
    unfold record_currency. rewrite decide_False by done. run_js.
    destruct (frappe_get_doc h "Company" (VString k)) as [[[[d|]]|]|];
      simpl; try done.
    destruct (decide (d = "")) as [Hd|Hd].
    + by rewrite bool_decide_eq_true_2.
    + rewrite bool_decide_eq_false_2 by done. simpl.
      unfold set_property. by rewrite decide_False.
  - run_js. destruct company as [| |k]; try done.
    apply truthy_string_false in Hc as ->. done.
Qed.

Lemma global_step_run h c :
  global_step h c =
    Run (Returns (VString <$> global_currency h)) c
        [CallGetDefault "currency"].
Proof.
  unfold global_step, global_currency. rewrite non_empty_setting. run_js.
  destruct (frappe_defaults_get_default h "currency") as [[d|]|];
    simpl; try done.
  by destruct (negb _).
Qed.

Lemma system_step_run h c :
  system_step h c =
    Run (Returns (VString <$> system_currency h)) c
        [ReadSysDefaults "currency"].
Proof.
  unfold system_step, system_currency. rewrite non_empty_setting. run_js.
  destruct (frappe_sys_defaults_currency h) as [[d|]|]; simpl; try done.
  by destruct (negb _).
Qed.

(** The whole run of [get_report_currency]: result, cache and calls. *)
Lemma get_report_currency_run h company c :
  get_report_currency h company c =
    match cached_currency c company with
    | Some v => Run (Returns v) c []
    | None =>
        Run (Returns (VString (lookup_currency h company)))
            (resolve_cache h c company) (lookup_calls h company)
    end.
Proof.
  destruct (cached_currency c company) as [v|] eqn:Hhit.
  - unfold cached_currency in Hhit.
    destruct company as [| |k]; try done.
    case_decide as Hk; [done|].
    destruct (truthy (get_property c k)) eqn:Hv; [|done].
    injection Hhit as <-.
    unfold get_report_currency. run_js.
    rewrite bool_decide_eq_false_2 by done. simpl. by rewrite Hv.
  - assert (get_report_currency h company c =
            or_continue (company_step h company)
              (or_continue (global_step h)
                 (or_continue (system_step h) (mret (VString "INR")))) c)
      as ->.
    { unfold get_report_currency.
      destruct (truthy (val company)) eqn:Hc.
      - apply truthy_val_param in Hc as (k & -> & Hk).
        apply cached_currency_None in Hhit as [Hv _]; [|done].
        unfold mbind, js_mbind, js_bind, read_cache at 1. simpl.
        rewrite Hv. apply run_eta.
      - unfold mbind, js_mbind, js_bind, mret at 1, js_mret, js_ret. simpl.
        rewrite Hc. apply run_eta. }
    rewrite (or_continue_run _ _ _ _ _ _ (company_step_run h _ _ Hhit)).
    unfold lookup_currency, lookup_calls, resolve_cache. rewrite Hhit.
    destruct (record_currency h company) as [d|]; simpl.
    { by rewrite app_nil_r. }
    rewrite (or_continue_run _ _ _ _ _ _ (global_step_run h _)).
    destruct (global_currency h) as [d|]; simpl; [done|].
    rewrite (or_continue_run _ _ _ _ _ _ (system_step_run h _)).
    by destruct (system_currency h) as [d|].
Qed.

Lemma cache_after_get_report_currency h company c :
  cache_after (get_report_currency h company c) = resolve_cache h c company.
Proof.
  rewrite get_report_currency_run. unfold resolve_cache.
  by destruct (cached_currency c company).
Qed.

Lemma completion_get_report_currency h company c :
  completion (get_report_currency h company c) =
    Returns (resolve_currency h c company).
Proof.
  rewrite get_report_currency_run. unfold resolve_currency.
  by destruct (cached_currency c company).
Qed.

Lemma record_currency_Some h company d :
  record_currency h company = Some d →
  ∃ k, company = PString k ∧ k ≠ "" ∧ d ≠ "".
Proof.
  unfold record_currency. destruct company as [| |k]; try done.
  case_decide as Hk; [done|].
  destruct (frappe_get_doc h "Company" (VString k)) as [[[[d'|]]|]|];
    try done.
  simpl. case_decide as Hd; [done|]. intros [= <-]. by exists k.
Qed.

Lemma inherited_falsy k :
  truthy (inherited k) = false → inherited k = VUndefined.
Proof. unfold inherited. by repeat case_decide. Qed.

(** A stored entry with a usable key and value is what the cache step
    finds. *)
Lemma cached_currency_own c k d :
  c !! k = Some d → k ≠ "" → d ≠ "" → k ≠ "__proto__" →
  cached_currency c (PString k) = Some (VString d).
Proof.
  intros Hkd Hk Hd Hproto. unfold cached_currency, get_property.
  rewrite !decide_False by done. rewrite Hkd.
  by apply truthy_string in Hd as ->.
Qed.

Lemma cache_ok_not_proto c k d : cache_ok c → c !! k = Some d → k ≠ "__proto__".
Proof. intros Hc Hkd ->. by destruct (Hc _ _ Hkd) as (_ & _ & ?). Qed.

Lemma cached_currency_ok c k d :
  cache_ok c → c !! k = Some d →
  cached_currency c (PString k) = Some (VString d).
Proof.
  intros Hc Hkd. destruct (Hc _ _ Hkd) as (Hk & Hd & _).
  eauto using cached_currency_own, cache_ok_not_proto.
Qed.

(** On a cache the module produced, and for a company that is not a
    member name of [Object.prototype], the cache step finds exactly the
    stored entry. *)
Lemma cached_currency_stored c k :
  cache_ok c → inherited k = VUndefined →
  cached_currency c (PString k) = VString <$> c !! k.
Proof.
  intros Hc Hinh. destruct (c !! k) as [d|] eqn:Hkd.
  { by apply cached_currency_ok. }
  unfold cached_currency, get_property. case_decide; [done|].
  case_decide as Hproto; [by subst k|]. by rewrite Hkd, Hinh.
Qed.

Lemma cache_ok_empty : cache_ok ∅.
Proof. intros k s. by rewrite lookup_empty. Qed.

Lemma resolve_cache_ok h c company :
  cache_ok c → cache_ok (resolve_cache h c company).
Proof.
  intros Hc. unfold resolve_cache.
  destruct (cached_currency c company) eqn:Hmiss; [done|].
  destruct (record_currency h company) as [d|] eqn:Hrec; [|done].
  apply record_currency_Some in Hrec as (k & -> & Hk & Hd).
  apply cached_currency_None in Hmiss as [Hv Hproto]; [|done].
  intros k' s. rewrite lookup_insert. case_decide as Hkk; [|by apply Hc].
  intros [= <-]. subst k'. split_and!; try done.
  unfold get_property in Hv. rewrite decide_False in Hv by done.
  destruct (c !! k) as [s|] eqn:Hks.
  - by destruct (Hc _ _ Hks) as (_ & _ & ?).
  - by apply inherited_falsy.
Qed.

Lemma cache_after_serve h (r : request number) c :
  cache_after (serve h r c) =
    match r with
    | ReportCurrency company => resolve_cache h c company
    | FormatCurrency _ currency company
    | CurrencySymbol currency company =>
        if nullish currency then resolve_cache h c company else c
    | ClearCache => ∅
    end.
Proof.
  destruct r as [company|amount currency company|currency company|]; simpl.
  - apply cache_after_get_report_currency.
  - unfold format_currency_js, format_with. run_js.
    destruct (nullish currency).
    + rewrite get_report_currency_run.
      rewrite <- cache_after_get_report_currency, get_report_currency_run.
      by destruct (cached_currency c company); simpl;
        destruct (frappe_format _ _ _ _).
    + simpl. by destruct (frappe_format _ _ _ _).
  - unfold get_currency_symbol. run_js.
    destruct (nullish currency); [|done].
    rewrite <- cache_after_get_report_currency, get_report_currency_run.
    by destruct (cached_currency c company).
  - done.
Qed.

Lemma cache_ok_serve h (r : request number) c :
  cache_ok c → cache_ok (cache_after (serve h r c)).
Proof.
  intros Hc. rewrite cache_after_serve.
  destruct r as [?|? currency ?|currency ?|];
    try destruct (nullish currency);
    auto using resolve_cache_ok, cache_ok_empty.
Qed.

Lemma reachable_cache_ok c : reachable number c → cache_ok c.
Proof.
  induction 1 as [|h r c _ IH]; [apply cache_ok_empty|].
  by apply cache_ok_serve.
Qed.

(** An entry survives every request but a clear. *)
Lemma serve_keeps_entry h (r : request number) c k d :
  cache_ok c → is_clear r = false → c !! k = Some d →
  cache_after (serve h r c) !! k = Some d.
Proof.
  intros Hc Hr Hkd. rewrite cache_after_serve.
  assert (∀ company, resolve_cache h c company !! k = Some d) as Hres.
  { intros company. unfold resolve_cache.
    destruct (cached_currency c company) eqn:Hmiss; [done|].
    destruct (record_currency h company) as [d'|] eqn:Hrec; [|done].
    apply record_currency_Some in Hrec as (k' & -> & Hk' & Hd').
    rewrite lookup_insert_ne; [done|]. intros ->.
    by rewrite (cached_currency_ok _ _ _ Hc Hkd) in Hmiss. }
  destruct r as [?|? currency ?|currency ?|];
    try destruct (nullish currency); done.
Qed.

Lemma serve_all_keeps_entry (rs : list (host number * request number)) c k d :
  cache_ok c → Forall (λ hr, is_clear hr.2 = false) rs → c !! k = Some d →
  cache_ok (serve_all rs c) ∧ serve_all rs c !! k = Some d.
Proof.
  revert c. induction rs as [|[h r] rs IH]; intros c Hc Hrs Hkd; [done|].
  apply Forall_cons in Hrs as [Hr Hrs]. simpl.
  apply IH; [by apply cache_ok_serve|done|by apply serve_keeps_entry].
Qed.

(** ** The fallback chain *)

(** The run of [get_report_currency(company)] in terms of the read on
    line 16.  A truthy [currencyCache[company]] for a non-empty company
    is returned first; otherwise the default currency of the company
    record, which is then stored under the company; otherwise the global
    default if non-empty; otherwise the system default if non-empty;
    otherwise the literal ["INR"].  The collaborators are consulted in
    that order, up to the first success. *)
Lemma get_report_currency_steps h company c :
  completion (get_report_currency h company c) =
    Returns
      match cached_currency c company with
      | Some v => v
      | None =>
          VString
            match record_currency h company with
            | Some d => d
            | None =>
                match global_currency h with
                | Some d => d
                | None =>
                    match system_currency h with
                    | Some d => d
                    | None => "INR"
                    end
                end
            end
      end
  ∧ cache_after (get_report_currency h company c) =
      match cached_currency c company, record_currency h company, company with
      | None, Some d, PString k => <[k := d]> c
      | _, _, _ => c
      end
  ∧ calls (get_report_currency h company c) =
      match cached_currency c company with
      | Some _ => []
      | None =>
          ((if truthy (val company)
            then [CallGetDoc "Company" (val company)] else [])
           ++ match record_currency h company with
              | Some _ => []
              | None =>
                  CallGetDefault "currency" ::
                  match global_currency h with
                  | Some _ => []
                  | None => [ReadSysDefaults "currency"]
                  end
              end)%list
      end.
Proof.
  split_and!.
  - apply completion_get_report_currency.
  - apply cache_after_get_report_currency.
  - rewrite get_report_currency_run.
    by destruct (cached_currency c company).
Qed.

Lemma non_empty_Some (o : outcome (option string)) d :
  non_empty o = Some d → d ≠ "".
Proof.
  destruct o as [[d'|]|]; simpl; try done.
  case_decide; [done|]. by intros [= <-].
Qed.

Lemma lookup_currency_non_empty h company : lookup_currency h company ≠ "".
Proof.
  unfold lookup_currency, global_currency, system_currency.
  destruct (record_currency h company) as [d|] eqn:Hrec.
  { by apply record_currency_Some in Hrec as (? & ? & ? & ?). }
  destruct (non_empty (frappe_defaults_get_default h "currency")) eqn:Hglob.
  { eauto using non_empty_Some. }
  destruct (non_empty (frappe_sys_defaults_currency h)) eqn:Hsys.
  { eauto using non_empty_Some. }
  done.
Qed.

Lemma cached_currency_truthy c company v :
  cached_currency c company = Some v → truthy v = true.
Proof.
  unfold cached_currency. destruct company as [| |k]; try done.
  case_decide; [done|].
  destruct (truthy (get_property c k)) eqn:Hv; [|done]. by intros [= <-].
Qed.

(** [get_report_currency] never throws, and what it returns is truthy. *)
Lemma get_report_currency_returns h company c :
  ∃ v, completion (get_report_currency h company c) = Returns v
       ∧ truthy v = true.
Proof.
  rewrite completion_get_report_currency. eexists. split; [done|].
  unfold resolve_currency.
  destruct (cached_currency c company) as [v|] eqn:Hhit.
  - eauto using cached_currency_truthy.
  - apply truthy_string, lookup_currency_non_empty.
Qed.

(** For a company whose name is not a member name of [Object.prototype]
    the result is a non-empty string. *)
Lemma get_report_currency_string h company c :
  (∀ k, company = PString k → inherited k = VUndefined) →
  ∃ s, completion (get_report_currency h company c) = Returns (VString s)
       ∧ s ≠ "".
Proof.
  intros Hname.
  destruct (get_report_currency_returns h company c) as (v & Hv & Htrue).
  rewrite Hv. rewrite completion_get_report_currency in Hv.
  injection Hv as <-.
  assert (∃ s, resolve_currency h c company = VString s) as [s Hs].
  { unfold resolve_currency.
    destruct (cached_currency c company) as [v|] eqn:Hhit; [|by eexists].
    pose proof (cached_currency_truthy _ _ _ Hhit) as Hv.
    unfold cached_currency in Hhit. destruct company as [| |k]; try done.
    specialize (Hname k eq_refl).
    case_decide; [done|]. case_match; [|done]. injection Hhit as <-.
    unfold get_property in *. case_decide as Hproto; [by subst k|].
    destruct (c !! k); [by eexists|]. by rewrite Hname in Hv. }
  rewrite Hs in *. exists s. split; [done|]. by apply truthy_string.
Qed.

(** C2: [get_report_currency("constructor")] on a fresh cache returns
    the built-in function that every plain object inherits under that
    name, whatever the collaborators do: the result is not a string. *)
Theorem get_report_currency_inherited_member h :
  get_report_currency h (PString "constructor") ∅ =
    Run (Returns (VBuiltin "constructor")) ∅ [].
Proof. by rewrite get_report_currency_run. Qed.

(** C1: for the company ["constructor"] on a fresh cache the result is
    not the one of the fallback chain.  The company is not in the cache,
    so the chain answers with the record's default currency, a default
    or ["INR"]; the code returns the built-in function the cache object
    inherits under that name, consults no collaborator and stores
    nothing. *)
Theorem get_report_currency_leaves_chain h :
  stored_currency ∅ (PString "constructor") = None
  ∧ chain_currency h ∅ (PString "constructor") =
      VString (lookup_currency h (PString "constructor"))
  ∧ get_report_currency h (PString "constructor") ∅ =
      Run (Returns (VBuiltin "constructor")) ∅ []
  ∧ completion (get_report_currency h (PString "constructor") ∅) ≠
      Returns (chain_currency h ∅ (PString "constructor")).
Proof.
  assert (get_report_currency h (PString "constructor") ∅ =
            Run (Returns (VBuiltin "constructor")) ∅ []) as Hrun
    by by rewrite get_report_currency_run.
  split_and!; [done|done|done|]. by rewrite Hrun.
Qed.

(** ** The cache *)

(** C3: once a company is stored in the cache, every later call of
    [get_report_currency] for it returns the stored value and consults no
    collaborator, whatever requests came in between and whatever the host
    now holds for that company, as long as the cache was not cleared. *)
Theorem cached_currency_is_sticky
    h (rs : list (host number * request number)) c k d :
  reachable number c →
  c !! k = Some d →
  Forall (λ hr, is_clear hr.2 = false) rs →
  get_report_currency h (PString k) (serve_all rs c) =
    Run (Returns (VString d)) (serve_all rs c) [].
Proof.
  intros Hc%reachable_cache_ok Hkd Hrs.
  destruct (serve_all_keeps_entry rs c k d) as [Hc' Hkd']; [done..|].
  rewrite get_report_currency_run.
  by rewrite (cached_currency_ok _ _ _ Hc' Hkd').
Qed.


(** C8: [get_report_currency] changes the cache in one way only: the
    company-record step stores the record's default currency under the
    company.  When that step yields nothing (the global-default,
    system-default and ["INR"] paths) the cache is as before, and no call
    removes an entry. *)
Theorem get_report_currency_frame h company c :
  (cache_after (get_report_currency h company c) = c
   ∨ ∃ k d, company = PString k
            ∧ cached_currency c company = None
            ∧ record_currency h company = Some d
            ∧ completion (get_report_currency h company c)
                = Returns (VString d)
            ∧ cache_after (get_report_currency h company c) = <[k := d]> c)
  ∧ (record_currency h company = None →
     cache_after (get_report_currency h company c) = c)
  ∧ dom c ⊆ dom (cache_after (get_report_currency h company c)).
Proof.
  rewrite completion_get_report_currency, cache_after_get_report_currency.
  unfold resolve_cache, resolve_currency, lookup_currency.
  destruct (cached_currency c company) as [v|] eqn:Hhit.
  { split_and!; [by left|done|done]. }
  destruct (record_currency h company) as [d|] eqn:Hrec.
  - destruct (record_currency_Some _ _ _ Hrec) as (k & -> & _ & _).
    split_and!; [right; by exists k, d|done|].
    rewrite dom_insert_L. set_solver.
  - split_and!; [by left|done|done].
Qed.

(** A second call right after the first one finds the same answer and
    leaves the cache alone. *)
Lemma get_report_currency_again h company c :
  let c1 := cache_after (get_report_currency h company c) in
  completion (get_report_currency h company c1) =
    completion (get_report_currency h company c)
  ∧ cache_after (get_report_currency h company c1) = c1.
Proof.
  simpl. rewrite !completion_get_report_currency.
  rewrite !cache_after_get_report_currency.
  destruct (cached_currency c company) as [v|] eqn:Hhit.
  { assert (resolve_cache h c company = c) as ->
      by (unfold resolve_cache; by rewrite Hhit).
    split; [done|]. unfold resolve_cache. by rewrite Hhit. }
  destruct (record_currency h company) as [d|] eqn:Hrec.
  - destruct (record_currency_Some _ _ _ Hrec) as (k & -> & Hk & Hd).
    assert (resolve_cache h c (PString k) = <[k:=d]> c) as ->
      by (unfold resolve_cache; by rewrite Hhit, Hrec).
    apply cached_currency_None in Hhit as Hproto; [|done].
    destruct Hproto as [_ Hproto].
    assert (cached_currency (<[k:=d]> c) (PString k) = Some (VString d))
      as Hnow.
    { apply cached_currency_own; try done. apply lookup_insert_eq. }
    unfold resolve_currency, resolve_cache, lookup_currency.
    by rewrite Hnow, Hhit, Hrec.
  - assert (resolve_cache h c company = c) as ->
      by (unfold resolve_cache; by rewrite Hhit, Hrec).
    split; [done|]. unfold resolve_cache. by rewrite Hhit, Hrec.
Qed.

(** C9: [n] calls of [get_report_currency(company)] in a row, on a host
    whose collaborators keep answering the same and with no clear in
    between, all yield the result of the first call. *)
Theorem get_report_currency_idempotent h company n c :
  Forall (λ r, r = completion (get_report_currency h company c))
         (repeat_report h company n c).1.
Proof.
  revert c. induction n as [|n IH]; intros c; simpl; [done|].
  destruct (repeat_report h company n
              (cache_after (get_report_currency h company c)))
    as [rest c'] eqn:Hrest.
  simpl. constructor; [done|].
  specialize (IH (cache_after (get_report_currency h company c))).
  rewrite Hrest in IH. simpl in IH.
  by rewrite (proj1 (get_report_currency_again h company c)) in IH.
Qed.

(** ** Formatting and symbols *)

Lemma format_with_run h amount cur c :
  format_with h amount cur c =
    Run (Returns
           (VString
              match frappe_format h amount "Currency" cur with
              | Returns s => s
              | Throws => to_string h cur +:+ " " +:+ toLocaleString h amount
              end))
        c [CallFormat amount "Currency" cur].
Proof.
  unfold format_with. run_js.
  by destruct (frappe_format h amount "Currency" cur).
Qed.

(** C4 (amended): when the [currency] argument is [undefined] or [null],
    [format_currency_js] and [get_currency_symbol] work with the currency
    that [get_report_currency(company)] returns. *)
Theorem absent_currency_is_resolved h amount currency company c :
  nullish currency = true →
  format_uses_resolved h amount currency company c
  ∧ symbol_uses_resolved h currency company c.
Proof.
  intros Habsent.
  split; exists (resolve_currency h c company);
    (split; [apply completion_get_report_currency|]).
  - unfold format_currency_js. rewrite Habsent.
    unfold mbind, js_mbind, js_bind.
    by rewrite completion_get_report_currency.
  - unfold get_currency_symbol. rewrite Habsent.
    unfold mbind, js_mbind, js_bind.
    rewrite completion_get_report_currency. simpl. by rewrite app_nil_r.
Qed.

Lemma symbol_of_known h code sym :
  currency_symbols !! code = Some sym → symbol_of h (VString code) = VString sym.
Proof.
  intros Hcode. apply elem_of_list_to_map_2 in Hcode.
  repeat (apply elem_of_cons in Hcode as [[= -> ->]|Hcode];
          [by vm_compute|]).
  by apply elem_of_nil in Hcode.
Qed.

Lemma symbol_of_unknown h s :
  currency_symbols !! s = None → inherited s = VUndefined →
  symbol_of h (VString s) = VString s.
Proof.
  intros Hnone Hinh. unfold symbol_of, get_property. simpl.
  case_decide as Hproto; [by subst s|]. by rewrite Hnone, Hinh.
Qed.

(** With a [currency] given, [get_currency_symbol] is a pure lookup. *)
Lemma get_currency_symbol_given h s company c :
  get_currency_symbol h (PString s) company c =
    Run (Returns (symbol_of h (VString s))) c [].
Proof. done. Qed.

(** [get_currency_symbol] never throws. *)
Lemma get_currency_symbol_returns h currency company c :
  ∃ v, completion (get_currency_symbol h currency company c) = Returns v.
Proof.
  unfold get_currency_symbol, mbind, js_mbind, js_bind.
  destruct (nullish currency); [|by eexists].
  rewrite completion_get_report_currency. by eexists.
Qed.

Lemma get_currency_symbol_usd h company c :
  completion (get_currency_symbol h (PString "USD") company c) =
    Returns (VString "$").
Proof. rewrite get_currency_symbol_given. simpl. by vm_compute. Qed.

Lemma get_currency_symbol_xyz h company c :
  completion (get_currency_symbol h (PString "XYZ") company c) =
    Returns (VString "XYZ").
Proof. rewrite get_currency_symbol_given. simpl. by vm_compute. Qed.

(** C5: [get_currency_symbol("constructor")] returns neither a symbol
    nor the code: the table, a plain object, yields the built-in
    function it inherits under that name. *)
Theorem get_currency_symbol_inherited_member h company c :
  get_currency_symbol h (PString "constructor") company c =
    Run (Returns (VBuiltin "constructor")) c [].
Proof. rewrite get_currency_symbol_given. by vm_compute. Qed.

(** C6: [format_currency_js] never throws and always returns a string;
    when the formatter throws, the string is the currency, a space and
    [amount.toLocaleString()], both for a currency passed in and for one
    resolved from the company. *)
Theorem format_currency_js_never_fails h amount currency company c :
  (∃ s, completion (format_currency_js h amount currency company c) =
          Returns (VString s))
  ∧ (∀ code,
       currency = PString code →
       frappe_format h amount "Currency" (VString code) = Throws →
       completion (format_currency_js h amount currency company c) =
         Returns (VString (code +:+ " " +:+ toLocaleString h amount)))
  ∧ (∀ code,
       nullish currency = true →
       completion (get_report_currency h company c) =
         Returns (VString code) →
       frappe_format h amount "Currency" (VString code) = Throws →
       completion (format_currency_js h amount currency company c) =
         Returns (VString (code +:+ " " +:+ toLocaleString h amount))).
Proof.
  unfold format_currency_js, mbind, js_mbind, js_bind. split_and!.
  - destruct (nullish currency).
    + rewrite completion_get_report_currency, format_with_run. by eexists.
    + simpl. rewrite format_with_run. by eexists.
  - intros code -> Hfail. simpl. rewrite format_with_run. simpl.
    by rewrite Hfail.
  - intros code -> Hcur Hfail. rewrite Hcur, format_with_run. simpl.
    by rewrite Hfail.
Qed.

(** C10: with a [currency] argument that is neither [undefined] nor
    [null], [get_currency_symbol] depends on that argument only: the
    company, the cache and the host do not matter, no collaborator is
    consulted and the cache stays as it is. *)
Theorem get_currency_symbol_ignores_company
    h h' currency company company' c c' :
  nullish currency = false →
  completion (get_currency_symbol h currency company c) =
    completion (get_currency_symbol h' currency company' c')
  ∧ cache_after (get_currency_symbol h currency company c) = c
  ∧ calls (get_currency_symbol h currency company c) = [].
Proof. destruct currency as [| |s]; done. Qed.

End Properties.

(** * The properties at work on the sample hosts *)

Lemma cached_currency_is_sticky_witness :
  reachable Q acme_cache
  ∧ acme_cache !! "AcmeCo" = Some "EUR"
  ∧ Forall (λ hr, is_clear hr.2 = false) later_requests
  ∧ get_report_currency acme_host_chf (PString "AcmeCo")
      (serve_all later_requests acme_cache) =
      Run (Returns (VString "EUR")) (serve_all later_requests acme_cache) [].
Proof.
  assert (reachable Q acme_cache) as Hreach
    by apply reachable_serve, reachable_init.
  assert (acme_cache !! "AcmeCo" = Some "EUR") as Hentry
    by (vm_compute; reflexivity).
  assert (Forall (λ hr : host Q * request Q, is_clear hr.2 = false)
            later_requests) as Hnoclear
    by (repeat constructor).
  split_and!; try assumption.
  exact (cached_currency_is_sticky acme_host_chf later_requests acme_cache
           "AcmeCo" "EUR" Hreach Hentry Hnoclear).
Defined.


Lemma absent_currency_is_resolved_witness :
  nullish PUndefined = true
  ∧ format_uses_resolved acme_host (2469 # 2)%Q PUndefined
      (PString "AcmeCo") ∅
  ∧ symbol_uses_resolved acme_host PUndefined (PString "AcmeCo") ∅.
Proof.
  split; [reflexivity|].
  apply (absent_currency_is_resolved acme_host (2469 # 2)%Q PUndefined
           (PString "AcmeCo") ∅).
  reflexivity.
Defined.

(** C4, as stated, at an empty [currency]: neither function resolves
    it.  The empty string goes to the formatter and to the table as it
    is, while [get_report_currency] would have answered ["INR"]. *)
Lemma empty_currency_is_not_resolved :
  ¬ format_uses_resolved bare_host (2469 # 2)%Q (PString "") PUndefined ∅
  ∧ ¬ symbol_uses_resolved bare_host (PString "") PUndefined ∅.
Proof.
  split; intros (cur & Hcur & Hrun);
    vm_compute in Hcur; injection Hcur as <-;
    vm_compute in Hrun; discriminate Hrun.
Qed.

Lemma format_currency_js_never_fails_witness :
  frappe_format bare_host (2469 # 2)%Q "Currency" (VString "USD") = Throws
  ∧ completion
      (format_currency_js bare_host (2469 # 2)%Q (PString "USD") PUndefined ∅)
      = Returns (VString "USD 1,234.5").
Proof.
  split; [reflexivity|].
  exact (proj1 (proj2 (format_currency_js_never_fails bare_host (2469 # 2)%Q
                         (PString "USD") PUndefined ∅))
           "USD" eq_refl eq_refl).
Defined.

Lemma get_currency_symbol_ignores_company_witness :
  nullish (PString "EUR") = false
  ∧ completion
      (get_currency_symbol acme_host (PString "EUR") (PString "AcmeCo") ∅) =
    completion
      (get_currency_symbol bare_host (PString "EUR") PUndefined acme_cache)
  ∧ cache_after
      (get_currency_symbol acme_host (PString "EUR") (PString "AcmeCo") ∅) = ∅
  ∧ calls
      (get_currency_symbol acme_host (PString "EUR") (PString "AcmeCo") ∅) = [].
Proof.
  split; [reflexivity|].
  apply (get_currency_symbol_ignores_company acme_host bare_host
           (PString "EUR") (PString "AcmeCo") PUndefined ∅ acme_cache).
  reflexivity.
Defined.

(** [get_currency_symbol(undefined, "AcmeCo")], AcmeCo being in euros. *)
Example get_currency_symbol_acme :
  completion (get_currency_symbol acme_host PUndefined (PString "AcmeCo") ∅)
    = Returns (VString "€").
Proof. vm_compute. reflexivity. Qed.

(** * Further properties of the four functions *)

Section Further.

Context {number : Type}.
Implicit Types (h : host number) (c : gmap string string).
Implicit Types (company currency : param) (k d : string).

Lemma inherited_undefined k :
  inherited k = VUndefined ↔ k ∉ ("__proto__" :: object_prototype_functions).
Proof.
  unfold inherited. rewrite not_elem_of_cons.
  destruct (decide (k = "__proto__")) as [Hp|Hp].
  { split; [done|]. by intros [? _]. }
  destruct (decide (k ∈ object_prototype_functions)) as [Hf|Hf].
  { split; [done|]. by intros [_ ?]. }
  done.
Qed.

Lemma truthy_or_else a b : truthy b = true → truthy (or_else a b) = true.
Proof. unfold or_else. by destruct (truthy a) eqn:Ha. Qed.

Lemma cached_currency_absent c company :
  truthy (val company) = false → cached_currency c company = None.
Proof.
  destruct company as [| |k]; try done.
  intros ->%truthy_string_false. done.
Qed.

Lemma record_currency_absent h company :
  truthy (val company) = false → record_currency h company = None.
Proof.
  destruct company as [| |k]; try done.
  intros ->%truthy_string_false. done.
Qed.

Lemma resolve_cache_other h c company k :
  company ≠ PString k → resolve_cache h c company !! k = c !! k.
Proof.
  intros Hother. unfold resolve_cache.
  destruct (cached_currency c company); [done|].
  destruct (record_currency h company); [|done].
  destruct company as [| |k']; try done.
  rewrite lookup_insert_ne; [done|]. by intros ->.
Qed.

(** The cache step looks at the company's own entry only. *)
Lemma cached_currency_local c c' k :
  c !! k = c' !! k → cached_currency c (PString k) = cached_currency c' (PString k).
Proof. intros Hk. unfold cached_currency, get_property. by rewrite Hk. Qed.

(** Where an entry of the cache after a request comes from. *)
Lemma serve_entry_origin h (r : request number) c k d :
  cache_after (serve h r c) !! k = Some d →
  c !! k = Some d
  ∨ (request_company r = Some (PString k)
     ∧ record_currency h (PString k) = Some d).
Proof.
  rewrite cache_after_serve.
  assert (∀ company,
            resolve_cache h c company !! k = Some d →
            c !! k = Some d
            ∨ (company = PString k ∧ record_currency h (PString k) = Some d))
    as Hres.
  { intros company. unfold resolve_cache.
    destruct (cached_currency c company); [by left|].
    destruct (record_currency h company) as [d'|] eqn:Hrec; [|by left].
    destruct company as [| |k']; [by left..|].
    rewrite lookup_insert. case_decide as Hkk; [|by left].
    subst k'. intros [= <-]. by right. }
  destruct r as [company|amount currency company|currency company|]; simpl.
  - intros [?|[-> ?]]%Hres; [by left|by right].
  - destruct (nullish currency); [|by left].
    intros [?|[-> ?]]%Hres; [by left|by right].
  - destruct (nullish currency); [|by left].
    intros [?|[-> ?]]%Hres; [by left|by right].
  - by rewrite lookup_empty.
Qed.

Lemma format_currency_js_run h amount currency company c :
  format_currency_js h amount currency company c =
    Run (Returns
           (VString
              match frappe_format h amount "Currency"
                      (currency_used h c currency company) with
              | Returns s => s
              | Throws =>
                  to_string h (currency_used h c currency company)
                  +:+ " " +:+ toLocaleString h amount
              end))
        (if nullish currency then resolve_cache h c company else c)
        ((if nullish currency
          then calls (get_report_currency h company c) else [])
         ++ [CallFormat amount "Currency"
               (currency_used h c currency company)]).
Proof.
  unfold format_currency_js, currency_used, mbind, js_mbind, js_bind.
  destruct (nullish currency).
  - rewrite completion_get_report_currency, format_with_run. simpl.
    by rewrite cache_after_get_report_currency.
  - simpl. by rewrite format_with_run.
Qed.

Lemma get_currency_symbol_run h currency company c :
  get_currency_symbol h currency company c =
    Run (Returns (symbol_of h (currency_used h c currency company)))
        (if nullish currency then resolve_cache h c company else c)
        (if nullish currency
         then calls (get_report_currency h company c) else []).
Proof.
  unfold get_currency_symbol, currency_used, mbind, js_mbind, js_bind.
  destruct (nullish currency); [|done].
  rewrite completion_get_report_currency. simpl.
  by rewrite cache_after_get_report_currency, app_nil_r.
Qed.

(** The chain answers the same on the cache it has just left behind. *)
Lemma resolve_currency_settled h c company :
  resolve_currency h (resolve_cache h c company) company =
    resolve_currency h c company.
Proof.
  pose proof (get_report_currency_again h company c) as [Hsame _].
  simpl in Hsame.
  rewrite cache_after_get_report_currency in Hsame.
  rewrite !completion_get_report_currency in Hsame.
  by injection Hsame.
Qed.

(** ** Resolution *)

(** X1: [get_report_currency] returns normally whatever the
    collaborators do, and what it returns is never [undefined], [null]
    or the empty string. *)
Theorem get_report_currency_usable h company c :
  ∃ v, completion (get_report_currency h company c) = Returns v
       ∧ v ≠ VUndefined ∧ v ≠ VNull ∧ v ≠ VString "".
Proof.
  destruct (get_report_currency_returns h company c) as (v & Hv & Htrue).
  exists v. split_and!; [done|by intros ->..].
Qed.

(** X2: for a company whose name is not a member name of
    [Object.prototype], [get_report_currency] returns a non-empty string,
    on every cache and every host. *)
Theorem get_report_currency_ordinary_company h company c :
  (∀ k, company = PString k →
        k ∉ ("__proto__" :: object_prototype_functions)) →
  ∃ s, completion (get_report_currency h company c) = Returns (VString s)
       ∧ s ≠ "".
Proof.
  intros Hname. apply get_report_currency_string.
  intros k Hk. by apply inherited_undefined, Hname.
Qed.

(** X3: with no company ([undefined], [null] or the empty string) the
    cache is neither read nor written and [frappe.get_doc] is not
    called: the answer is the global default, else the system default,
    else ["INR"], and the three forms of "no company" behave alike. *)
Theorem get_report_currency_no_company h company c :
  truthy (val company) = false →
  get_report_currency h company c =
    Run (Returns
           (VString
              match global_currency h with
              | Some d => d
              | None =>
                  match system_currency h with
                  | Some d => d
                  | None => "INR"
                  end
              end))
        c
        (CallGetDefault "currency" ::
         match global_currency h with
         | Some _ => []
         | None => [ReadSysDefaults "currency"]
         end).
Proof.
  intros Hno. rewrite get_report_currency_run.
  rewrite (cached_currency_absent _ _ Hno).
  unfold lookup_currency, lookup_calls, resolve_cache.
  rewrite (cached_currency_absent _ _ Hno), (record_currency_absent _ _ Hno).
  by rewrite Hno.
Qed.

(** X4: an answer that came from the fallbacks does not stick.  After a
    call that found neither a cache entry nor a usable company record,
    the next call goes to the record again and returns its default
    currency once there is one. *)
Theorem fallback_answer_does_not_stick h h' company c d :
  cached_currency c company = None →
  record_currency h company = None →
  record_currency h' company = Some d →
  cache_after (get_report_currency h company c) = c
  ∧ completion
      (get_report_currency h' company
         (cache_after (get_report_currency h company c))) =
    Returns (VString d).
Proof.
  intros Hmiss Hnone Hnow.
  assert (cache_after (get_report_currency h company c) = c) as Hsame.
  { rewrite cache_after_get_report_currency. unfold resolve_cache.
    by rewrite Hmiss, Hnone. }
  split; [done|]. rewrite Hsame, completion_get_report_currency.
  unfold resolve_currency, lookup_currency. by rewrite Hmiss, Hnow.
Qed.

(** X5: the result of [get_report_currency(company)] and the calls it
    makes depend on the cache through the entry of that company only. *)
Theorem get_report_currency_own_entry h c c' k :
  c !! k = c' !! k →
  completion (get_report_currency h (PString k) c) =
    completion (get_report_currency h (PString k) c')
  ∧ calls (get_report_currency h (PString k) c) =
    calls (get_report_currency h (PString k) c').
Proof.
  intros Hk. rewrite !get_report_currency_run.
  rewrite (cached_currency_local c c' k Hk).
  by destruct (cached_currency c' (PString k)).
Qed.

(** On a cache the module produced, and for a company that is not
    named like a member of [Object.prototype], the read of line 16 finds
    the stored entry and nothing else. *)
Lemma cached_currency_is_stored c company :
  cache_ok c →
  (∀ k, company = PString k →
        k ∉ ("__proto__" :: object_prototype_functions)) →
  cached_currency c company = VString <$> stored_currency c company.
Proof.
  intros Hc Hname. destruct company as [| |k]; try done.
  unfold stored_currency. case_decide as Hk.
  - subst k. unfold cached_currency. by rewrite decide_True.
  - apply cached_currency_stored; [done|].
    by apply inherited_undefined, Hname.
Qed.

(** X20: for a company that is not named like a member of
    [Object.prototype] (or no company), on every cache the module
    produces, [get_report_currency] answers by the ordered chain: the
    value stored for the company if there is one, without any call;
    otherwise the record's default currency, which is then stored under
    the company; otherwise the global default if non-empty; otherwise
    the system default if non-empty; otherwise ["INR"], with the
    collaborators consulted in that order up to the first success. *)
Theorem get_report_currency_chain_ordinary h company c :
  reachable number c →
  (∀ k, company = PString k →
        k ∉ ("__proto__" :: object_prototype_functions)) →
  get_report_currency h company c =
    match stored_currency c company with
    | Some d => Run (Returns (VString d)) c []
    | None =>
        Run (Returns
               (VString
                  match record_currency h company with
                  | Some d => d
                  | None =>
                      match global_currency h with
                      | Some d => d
                      | None =>
                          match system_currency h with
                          | Some d => d
                          | None => "INR"
                          end
                      end
                  end))
            match record_currency h company, company with
            | Some d, PString k => <[k := d]> c
            | _, _ => c
            end
            ((if truthy (val company)
              then [CallGetDoc "Company" (val company)] else [])
             ++ match record_currency h company with
                | Some _ => []
                | None =>
                    CallGetDefault "currency" ::
                    match global_currency h with
                    | Some _ => []
                    | None => [ReadSysDefaults "currency"]
                    end
                end)%list
    end.
Proof.
  intros Hc%reachable_cache_ok Hname.
  rewrite get_report_currency_run.
  pose proof (cached_currency_is_stored c company Hc Hname) as Hstep.
  unfold resolve_cache. rewrite Hstep.
  destruct (stored_currency c company) as [d|]; simpl; [done|].
  unfold lookup_calls, lookup_currency.
  by destruct (record_currency h company), company.
Qed.

(** ** The cache as a whole *)

(** X6: a request about one company leaves the entries of all other
    companies as they are, whichever of the three functions serves it. *)
Theorem other_companies_untouched h (r : request number) c k :
  is_clear r = false →
  request_company r ≠ Some (PString k) →
  cache_after (serve h r c) !! k = c !! k.
Proof.
  intros Hr Hother. rewrite cache_after_serve.
  destruct r as [company|amount currency company|currency company|];
    simpl in *; try done;
    try (destruct (nullish currency); [|done]);
    apply resolve_cache_other; by intros ->.
Qed.

(** X7: in every cache the module produces, keys and values are
    non-empty strings and no key is a member name of
    [Object.prototype]. *)
Theorem reachable_cache_entries c k d :
  reachable number c →
  c !! k = Some d →
  k ≠ "" ∧ d ≠ "" ∧ k ∉ ("__proto__" :: object_prototype_functions).
Proof.
  intros Hc%reachable_cache_ok Hkd.
  destruct (Hc _ _ Hkd) as (Hk & Hd & Hinh).
  split_and!; try done. by apply inherited_undefined.
Qed.

(** X8: every value in the cache is a default currency that
    [frappe.get_doc] delivered for that company in an earlier request
    about it: global defaults, system defaults and ["INR"] are never
    stored. *)
Theorem cached_value_provenance
    (rs : list (host number * request number)) k d :
  serve_all rs ∅ !! k = Some d →
  ∃ h r, (h, r) ∈ rs
         ∧ request_company r = Some (PString k)
         ∧ record_currency h (PString k) = Some d.
Proof.
  assert (∀ c0,
            serve_all rs c0 !! k = Some d →
            c0 !! k = Some d
            ∨ ∃ h r, (h, r) ∈ rs
                     ∧ request_company r = Some (PString k)
                     ∧ record_currency h (PString k) = Some d) as Hgen.
  { induction rs as [|[h r] rs IH]; intros c0 Hkd; [by left|].
    simpl in Hkd. destruct (IH _ Hkd) as [Hone|(h' & r' & Hin & Hrest)].
    - destruct (serve_entry_origin _ _ _ _ _ Hone) as [?|[? ?]];
        [by left|].
      right. exists h, r. split; [apply elem_of_cons; by left|done].
    - right. exists h', r'. split; [apply elem_of_cons; by right|done]. }
  intros Hkd. destruct (Hgen ∅ Hkd) as [Hempty|?]; [|done].
  by rewrite lookup_empty in Hempty.
Qed.

(** X9: as long as the cache is not cleared it only grows: every entry
    survives every later request, with its value. *)
Theorem cache_grows_until_cleared
    (rs : list (host number * request number)) c :
  reachable number c →
  Forall (λ hr, is_clear hr.2 = false) rs →
  c ⊆ serve_all rs c.
Proof.
  intros Hc%reachable_cache_ok Hrs. apply map_subseteq_spec.
  intros k d Hkd. by apply serve_all_keeps_entry.
Qed.

(** X10: repeating a request on the same host gives the same result, for
    each of the four functions. *)
Theorem serve_again_same_result h (r : request number) c :
  completion (serve h r (cache_after (serve h r c))) =
    completion (serve h r c).
Proof.
  rewrite cache_after_serve.
  destruct r as [company|amount currency company|currency company|]; simpl.
  - rewrite <- cache_after_get_report_currency.
    apply get_report_currency_again.
  - rewrite !format_currency_js_run. simpl. unfold currency_used.
    destruct (nullish currency); [|done].
    by rewrite resolve_currency_settled.
  - rewrite !get_currency_symbol_run. simpl. unfold currency_used.
    destruct (nullish currency); [|done].
    by rewrite resolve_currency_settled.
  - done.
Qed.

(** X11: a resolution made in passing fills the cache.  Let the
    company not be named like a member of [Object.prototype], have no
    entry in the cache, and have a record with a default currency.
    Then [format_currency_js] and [get_currency_symbol], called without
    a currency, store that currency under the company, and
    [get_report_currency] afterwards answers it from the cache, without
    a call, on any host. *)
Theorem resolution_in_passing_is_cached h h' amount currency k c d :
  nullish currency = true →
  k ∉ ("__proto__" :: object_prototype_functions) →
  c !! k = None →
  record_currency h (PString k) = Some d →
  cache_after (format_currency_js h amount currency (PString k) c)
    = <[k := d]> c
  ∧ cache_after (get_currency_symbol h currency (PString k) c)
    = <[k := d]> c
  ∧ get_report_currency h' (PString k)
      (cache_after (format_currency_js h amount currency (PString k) c)) =
      Run (Returns (VString d)) (<[k := d]> c) []
  ∧ get_report_currency h' (PString k)
      (cache_after (get_currency_symbol h currency (PString k) c)) =
      Run (Returns (VString d)) (<[k := d]> c) [].
Proof.
  intros Habsent Hname Hfree Hrec.
  destruct (record_currency_Some _ _ _ Hrec) as (k' & [= <-] & Hk & Hd).
  assert (k ≠ "__proto__") as Hproto
    by (intros ->; apply Hname, elem_of_cons; by left).
  assert (cached_currency c (PString k) = None) as Hmiss.
  { unfold cached_currency, get_property.
    rewrite !decide_False by done. rewrite Hfree.
    by apply inherited_undefined in Hname as ->. }
  assert (resolve_cache h c (PString k) = <[k := d]> c) as Hstore
    by (unfold resolve_cache; by rewrite Hmiss, Hrec).
  assert (cached_currency (<[k := d]> c) (PString k) = Some (VString d))
    as Hnow.
  { apply cached_currency_own; try done. apply lookup_insert_eq. }
  rewrite format_currency_js_run, get_currency_symbol_run. simpl.
  rewrite Habsent, Hstore.
  by rewrite get_report_currency_run, Hnow.
Qed.

(** ** Formatting *)

(** X12: with a currency given, even the empty string,
    [format_currency_js] does not look at the company or the cache: it
    calls [frappe.format] once with field type ["Currency"] and that
    currency, returns the formatter's string unchanged, or, if the
    formatter throws, the currency, a space and
    [amount.toLocaleString()]. *)
Theorem format_currency_js_given h amount s company c :
  format_currency_js h amount (PString s) company c =
    Run (Returns
           (VString
              match frappe_format h amount "Currency" (VString s) with
              | Returns t => t
              | Throws => s +:+ " " +:+ toLocaleString h amount
              end))
        c [CallFormat amount "Currency" (VString s)].
Proof. by rewrite format_currency_js_run. Qed.

(** X13: [frappe.format] is called exactly once per call of
    [format_currency_js], after every other collaborator, and when it
    returns, its string is the result as it is. *)
Theorem format_currency_js_formatter_last h amount currency company c :
  ∃ cur,
    calls (format_currency_js h amount currency company c) =
      ((if nullish currency
        then calls (get_report_currency h company c) else [])
       ++ [CallFormat amount "Currency" cur])%list
    ∧ (∀ a f o, CallFormat a f o ∉
         (if nullish currency
          then calls (get_report_currency h company c) else []))
    ∧ (∀ s, frappe_format h amount "Currency" cur = Returns s →
            completion (format_currency_js h amount currency company c) =
              Returns (VString s)).
Proof.
  exists (currency_used h c currency company).
  rewrite format_currency_js_run. simpl. split_and!; [done| |].
  - intros a f o. destruct (nullish currency); [|apply not_elem_of_nil].
    rewrite get_report_currency_run.
    destruct (cached_currency c company); simpl; [apply not_elem_of_nil|].
    unfold lookup_calls.
    destruct (truthy (val company)), (record_currency h company),
      (global_currency h); simpl;
      rewrite ?not_elem_of_cons; split_and?;
      try done; apply not_elem_of_nil.
  - by intros s ->.
Qed.

(** ** Symbols *)

(** X14: for each code of the table [get_currency_symbol] returns the
    symbol listed for it, without touching the cache or any
    collaborator. *)
Theorem get_currency_symbol_listed h code sym company c :
  currency_symbols !! code = Some sym →
  get_currency_symbol h (PString code) company c =
    Run (Returns (VString sym)) c [].
Proof.
  intros Hcode. rewrite get_currency_symbol_given.
  by rewrite (symbol_of_known h code sym Hcode).
Qed.

(** X15: a string that is neither in the table nor a member name of
    [Object.prototype] comes back unchanged; this covers the empty
    string. *)
Theorem get_currency_symbol_unlisted h s company c :
  currency_symbols !! s = None →
  s ∉ ("__proto__" :: object_prototype_functions) →
  get_currency_symbol h (PString s) company c =
    Run (Returns (VString s)) c [].
Proof.
  intros Hnone Hname%inherited_undefined.
  rewrite get_currency_symbol_given.
  by rewrite (symbol_of_unknown h s Hnone Hname).
Qed.

(** X16: [get_currency_symbol] returns normally, and its result is
    empty ([undefined], [null] or the empty string) exactly when the
    currency passed in is the empty string. *)
Theorem get_currency_symbol_empty_result h currency company c :
  ∃ v, completion (get_currency_symbol h currency company c) = Returns v
       ∧ (truthy v = false ↔ currency = PString "").
Proof.
  rewrite get_currency_symbol_run. simpl. eexists. split; [done|].
  unfold currency_used, symbol_of.
  destruct currency as [| |s]; simpl.
  1,2: split; [|done]; rewrite truthy_or_else; [done|];
       destruct (get_report_currency_returns h company c) as (v & Hv & Ht);
       rewrite completion_get_report_currency in Hv; by injection Hv as ->.
  destruct (decide (s = "")) as [->|Hs].
  - split; [done|]. intros _. by vm_compute.
  - rewrite truthy_or_else by by apply truthy_string.
    split; [done|]. by intros [= ->].
Qed.

(** X17: when the company resolves to a code of the table,
    [get_currency_symbol] called without a currency returns the symbol
    of that code. *)
Theorem get_currency_symbol_of_company h currency company c code sym :
  nullish currency = true →
  completion (get_report_currency h company c) = Returns (VString code) →
  currency_symbols !! code = Some sym →
  completion (get_currency_symbol h currency company c) =
    Returns (VString sym).
Proof.
  intros Habsent Hcode Hsym. rewrite get_currency_symbol_run. simpl.
  unfold currency_used. rewrite Habsent.
  rewrite completion_get_report_currency in Hcode. injection Hcode as ->.
  by rewrite (symbol_of_known h code sym Hsym).
Qed.

(** ** Member names of [Object.prototype] *)

Lemma inherited_member k :
  k ∈ "__proto__" :: object_prototype_functions →
  truthy (inherited k) = true ∧ k ≠ "".
Proof.
  intros Hk.
  repeat (apply elem_of_cons in Hk as [->|Hk]; [done|]).
  by apply elem_of_nil in Hk.
Qed.

(** X18: for a company named like a member of [Object.prototype]
    ([constructor], [toString], [__proto__], ...), on every cache the
    module produces, [get_report_currency] returns that inherited member
    and consults no collaborator; the company is never cached. *)
Theorem get_report_currency_member_name h c k :
  reachable number c →
  k ∈ "__proto__" :: object_prototype_functions →
  get_report_currency h (PString k) c = Run (Returns (inherited k)) c []
  ∧ c !! k = None.
Proof.
  intros Hc%reachable_cache_ok Hk.
  destruct (inherited_member k Hk) as [Htrue Hne].
  assert (c !! k = None) as Hfree.
  { destruct (c !! k) as [d|] eqn:Hkd; [|done].
    destruct (Hc _ _ Hkd) as (_ & _ & Hinh).
    by apply inherited_undefined in Hinh. }
  split; [|done]. rewrite get_report_currency_run.
  assert (get_property c k = inherited k) as Hread.
  { unfold get_property. rewrite Hfree. unfold inherited.
    by case_decide. }
  unfold cached_currency. rewrite decide_False by done.
  by rewrite Hread, Htrue.
Qed.

(** X19: for a currency named like a member of [Object.prototype],
    [get_currency_symbol] returns that inherited member instead of the
    code. *)
Theorem get_currency_symbol_member_name h k company c :
  k ∈ "__proto__" :: object_prototype_functions →
  get_currency_symbol h (PString k) company c =
    Run (Returns (inherited k)) c [].
Proof.
  intros Hk. rewrite get_currency_symbol_given.
  repeat (apply elem_of_cons in Hk as [->|Hk]; [by vm_compute|]).
  by apply elem_of_nil in Hk.
Qed.

End Further.

(** * The further properties at work on the sample hosts *)

Lemma get_report_currency_ordinary_company_witness :
  (∀ k, PString "AcmeCo" = PString k →
        k ∉ ("__proto__" :: object_prototype_functions))
  ∧ ∃ s, completion (get_report_currency acme_host (PString "AcmeCo") ∅)
           = Returns (VString s)
         ∧ s ≠ "".
Proof.
  assert (∀ k, PString "AcmeCo" = PString k →
               k ∉ ("__proto__" :: object_prototype_functions)) as Hname.
  { intros k [= <-]. apply inherited_undefined. reflexivity. }
  split; [exact Hname|].
  exact (get_report_currency_ordinary_company acme_host (PString "AcmeCo") ∅
           Hname).
Defined.

Lemma get_report_currency_no_company_witness :
  truthy (val (PString "")) = false
  ∧ get_report_currency acme_host (PString "") acme_cache =
      Run (Returns (VString "USD")) acme_cache [CallGetDefault "currency"].
Proof.
  split; [reflexivity|].
  exact (get_report_currency_no_company acme_host (PString "") acme_cache
           eq_refl).
Defined.

Lemma fallback_answer_does_not_stick_witness :
  cached_currency ∅ (PString "AcmeCo") = None
  ∧ record_currency bare_host (PString "AcmeCo") = None
  ∧ record_currency acme_host (PString "AcmeCo") = Some "EUR"
  ∧ cache_after (get_report_currency bare_host (PString "AcmeCo") ∅) = ∅
  ∧ completion
      (get_report_currency acme_host (PString "AcmeCo")
         (cache_after (get_report_currency bare_host (PString "AcmeCo") ∅)))
    = Returns (VString "EUR").
Proof.
  assert (cached_currency ∅ (PString "AcmeCo") = None) as Hmiss
    by reflexivity.
  assert (record_currency bare_host (PString "AcmeCo") = None) as Hnone
    by reflexivity.
  assert (record_currency acme_host (PString "AcmeCo") = Some "EUR") as Hnow
    by reflexivity.
  split_and!; try assumption;
    apply (fallback_answer_does_not_stick bare_host acme_host
             (PString "AcmeCo") ∅ "EUR" Hmiss Hnone Hnow).
Defined.

Lemma get_report_currency_own_entry_witness :
  (∅ : gmap string string) !! "AcmeCo"
    = ({["Other" := "USD"]} : gmap string string) !! "AcmeCo"
  ∧ completion (get_report_currency acme_host (PString "AcmeCo") ∅) =
    completion
      (get_report_currency acme_host (PString "AcmeCo") {["Other" := "USD"]})
  ∧ calls (get_report_currency acme_host (PString "AcmeCo") ∅) =
    calls
      (get_report_currency acme_host (PString "AcmeCo") {["Other" := "USD"]}).
Proof.
  assert ((∅ : gmap string string) !! "AcmeCo"
          = ({["Other" := "USD"]} : gmap string string) !! "AcmeCo") as Hk
    by (vm_compute; reflexivity).
  split; [exact Hk|].
  exact (get_report_currency_own_entry acme_host ∅ {["Other" := "USD"]}
           "AcmeCo" Hk).
Defined.

Lemma other_companies_untouched_witness :
  is_clear (ReportCurrency (number := Q) (PString "AcmeCo")) = false
  ∧ request_company (ReportCurrency (number := Q) (PString "AcmeCo"))
      ≠ Some (PString "Other")
  ∧ cache_after
      (serve acme_host (ReportCurrency (PString "AcmeCo"))
         {["Other" := "USD"]}) !! "Other"
    = ({["Other" := "USD"]} : gmap string string) !! "Other".
Proof.
  assert (request_company (ReportCurrency (number := Q) (PString "AcmeCo"))
            ≠ Some (PString "Other")) as Hother by discriminate.
  split_and!; [reflexivity|exact Hother|].
  exact (other_companies_untouched acme_host
           (ReportCurrency (PString "AcmeCo")) {["Other" := "USD"]} "Other"
           eq_refl Hother).
Defined.

Lemma reachable_cache_entries_witness :
  reachable Q acme_cache
  ∧ acme_cache !! "AcmeCo" = Some "EUR"
  ∧ "AcmeCo" ≠ "" ∧ "EUR" ≠ ""
  ∧ "AcmeCo" ∉ ("__proto__" :: object_prototype_functions).
Proof.
  assert (reachable Q acme_cache) as Hreach
    by apply reachable_serve, reachable_init.
  assert (acme_cache !! "AcmeCo" = Some "EUR") as Hentry
    by (vm_compute; reflexivity).
  split_and!; try assumption;
    apply (reachable_cache_entries acme_cache "AcmeCo" "EUR" Hreach Hentry).
Defined.

Lemma cached_value_provenance_witness :
  serve_all morning_requests ∅ !! "AcmeCo" = Some "EUR"
  ∧ ∃ h r, (h, r) ∈ morning_requests
           ∧ request_company r = Some (PString "AcmeCo")
           ∧ record_currency h (PString "AcmeCo") = Some "EUR".
Proof.
  assert (serve_all morning_requests ∅ !! "AcmeCo" = Some "EUR") as Hentry
    by (vm_compute; reflexivity).
  split; [exact Hentry|].
  exact (cached_value_provenance morning_requests "AcmeCo" "EUR" Hentry).
Defined.

Lemma cache_grows_until_cleared_witness :
  reachable Q acme_cache
  ∧ Forall (λ hr, is_clear hr.2 = false) later_requests
  ∧ acme_cache ⊆ serve_all later_requests acme_cache.
Proof.
  assert (reachable Q acme_cache) as Hreach
    by apply reachable_serve, reachable_init.
  assert (Forall (λ hr : host Q * request Q, is_clear hr.2 = false)
            later_requests) as Hnoclear
    by (repeat constructor).
  split_and!; try assumption.
  exact (cache_grows_until_cleared later_requests acme_cache Hreach Hnoclear).
Defined.

Lemma resolution_in_passing_is_cached_witness :
  nullish PUndefined = true
  ∧ ("AcmeCo" ∉ ("__proto__" :: object_prototype_functions))
  ∧ (∅ : gmap string string) !! "AcmeCo" = None
  ∧ record_currency acme_host (PString "AcmeCo") = Some "EUR"
  ∧ cache_after
      (format_currency_js acme_host (2469 # 2)%Q PUndefined
         (PString "AcmeCo") ∅)
    = <["AcmeCo" := "EUR"]> ∅
  ∧ get_report_currency acme_host_chf (PString "AcmeCo")
      (cache_after
         (get_currency_symbol acme_host PUndefined (PString "AcmeCo") ∅))
    = Run (Returns (VString "EUR")) (<["AcmeCo" := "EUR"]> ∅) [].
Proof.
  assert ("AcmeCo" ∉ ("__proto__" :: object_prototype_functions)) as Hname
    by (apply inherited_undefined; reflexivity).
  assert ((∅ : gmap string string) !! "AcmeCo" = None) as Hfree
    by apply lookup_empty.
  assert (record_currency acme_host (PString "AcmeCo") = Some "EUR") as Hrec
    by reflexivity.
  destruct (resolution_in_passing_is_cached acme_host acme_host_chf
              (2469 # 2)%Q PUndefined "AcmeCo" ∅ "EUR"
              eq_refl Hname Hfree Hrec)
    as (Hformat & _ & _ & Hsymbol).
  split_and!; [reflexivity|exact Hname|exact Hfree|exact Hrec| |].
  - exact Hformat.
  - exact Hsymbol.
Defined.

Lemma get_currency_symbol_listed_witness :
  currency_symbols !! "EUR" = Some "€"
  ∧ get_currency_symbol bare_host (PString "EUR") PUndefined ∅ =
      Run (Returns (VString "€")) ∅ [].
Proof.
  assert (currency_symbols !! "EUR" = Some "€") as Hsym
    by (vm_compute; reflexivity).
  split; [exact Hsym|].
  exact (get_currency_symbol_listed bare_host "EUR" "€" PUndefined ∅ Hsym).
Defined.

Lemma get_currency_symbol_unlisted_witness :
  currency_symbols !! "XYZ" = None
  ∧ ("XYZ" ∉ ("__proto__" :: object_prototype_functions))
  ∧ get_currency_symbol bare_host (PString "XYZ") PUndefined ∅ =
      Run (Returns (VString "XYZ")) ∅ [].
Proof.
  assert (currency_symbols !! "XYZ" = None) as Hnone
    by (vm_compute; reflexivity).
  assert ("XYZ" ∉ ("__proto__" :: object_prototype_functions)) as Hname
    by (apply inherited_undefined; reflexivity).
  split_and!; try assumption.
  exact (get_currency_symbol_unlisted bare_host "XYZ" PUndefined ∅
           Hnone Hname).
Defined.

Lemma get_currency_symbol_of_company_witness :
  nullish PUndefined = true
  ∧ completion (get_report_currency acme_host (PString "AcmeCo") ∅)
      = Returns (VString "EUR")
  ∧ currency_symbols !! "EUR" = Some "€"
  ∧ completion
      (get_currency_symbol acme_host PUndefined (PString "AcmeCo") ∅)
    = Returns (VString "€").
Proof.
  assert (completion (get_report_currency acme_host (PString "AcmeCo") ∅)
          = Returns (VString "EUR")) as Hcode
    by (vm_compute; reflexivity).
  assert (currency_symbols !! "EUR" = Some "€") as Hsym
    by (vm_compute; reflexivity).
  split_and!; [reflexivity|exact Hcode|exact Hsym|].
  exact (get_currency_symbol_of_company acme_host PUndefined
           (PString "AcmeCo") ∅ "EUR" "€" eq_refl Hcode Hsym).
Defined.

Lemma get_report_currency_member_name_witness :
  reachable Q acme_cache
  ∧ "toString" ∈ "__proto__" :: object_prototype_functions
  ∧ get_report_currency acme_host (PString "toString") acme_cache =
      Run (Returns (VBuiltin "toString")) acme_cache []
  ∧ acme_cache !! "toString" = None.
Proof.
  assert (reachable Q acme_cache) as Hreach
    by apply reachable_serve, reachable_init.
  assert ("toString" ∈ "__proto__" :: object_prototype_functions) as Hname
    by (apply list_elem_of_In; vm_compute; tauto).
  split_and!; try assumption;
    apply (get_report_currency_member_name acme_host acme_cache "toString"
             Hreach Hname).
Defined.

Lemma get_currency_symbol_member_name_witness :
  "valueOf" ∈ "__proto__" :: object_prototype_functions
  ∧ get_currency_symbol bare_host (PString "valueOf") PUndefined ∅ =
      Run (Returns (VBuiltin "valueOf")) ∅ [].
Proof.
  assert ("valueOf" ∈ "__proto__" :: object_prototype_functions) as Hname
    by (apply list_elem_of_In; vm_compute; tauto).
  split; [exact Hname|].
  exact (get_currency_symbol_member_name bare_host "valueOf" PUndefined ∅
           Hname).
Defined.

Lemma get_report_currency_chain_ordinary_witness :
  reachable Q acme_cache
  ∧ (∀ k, PString "AcmeCo" = PString k →
          k ∉ ("__proto__" :: object_prototype_functions))
  ∧ get_report_currency acme_host_chf (PString "AcmeCo") acme_cache =
      Run (Returns (VString "EUR")) acme_cache []
  ∧ (∀ k, PString "Other" = PString k →
          k ∉ ("__proto__" :: object_prototype_functions))
  ∧ get_report_currency acme_host_chf (PString "Other") acme_cache =
      Run (Returns (VString "USD")) acme_cache
          [CallGetDoc "Company" (VString "Other"); CallGetDefault "currency"].
Proof.
  assert (reachable Q acme_cache) as Hreach
    by apply reachable_serve, reachable_init.
  assert (∀ k, PString "AcmeCo" = PString k →
               k ∉ ("__proto__" :: object_prototype_functions)) as Hacme.
  { intros k [= <-]. apply inherited_undefined. reflexivity. }
  assert (∀ k, PString "Other" = PString k →
               k ∉ ("__proto__" :: object_prototype_functions)) as Hother.
  { intros k [= <-]. apply inherited_undefined. reflexivity. }
  split_and!; [exact Hreach|exact Hacme| |exact Hother|].
  - rewrite (get_report_currency_chain_ordinary acme_host_chf
               (PString "AcmeCo") acme_cache Hreach Hacme).
    vm_compute. reflexivity.
  - rewrite (get_report_currency_chain_ordinary acme_host_chf
               (PString "Other") acme_cache Hreach Hother).
    vm_compute. reflexivity.
Defined.
